(** * pymatgen.io.abinit.xc : the XcFunctional identity

    A shallow embedding of [src/pymatgen/io/abinit/xc.py].  Python
    objects that reach the class are modelled by a small universe of
    values, exceptions by an error monad, the ordered alias dictionary
    by an association list with Python's insertion rule. *)

From Stdlib Require Import ZArith List String Ascii Bool Lia.
Import ListNotations.

Local Open Scope string_scope.

(** ** Exceptions and the error monad *)

(** The exception classes the module can raise.  Python's
    [AssertionError] carries no message here; the asserted expression
    is kept so that the two [assert] statements can be told apart.
    The key a [KeyError] carries is left out. *)
Inductive exn : Type :=
| ValueError (msg : string)
| KeyError
| IndexError (msg : string)
| AssertionError (cond : string)
| NotImplementedError
| AttributeError (attr : string)
| TypeError (msg : string).

Inductive result (A : Type) : Type :=
| Ok (a : A)
| Raise (e : exn).

Arguments Ok {A} a.
Arguments Raise {A} e.

Definition bind {A B : Type} (m : result A) (k : A -> result B) : result B :=
  match m with
  | Ok a => k a
  | Raise e => Raise e
  end.

Notation "x <- m ;; k" := (bind m (fun x => k))
  (at level 61, m at next level, right associativity).

(** [assert cond] *)
Definition assert (b : bool) (cond : string) : result unit :=
  if b then Ok tt else Raise (AssertionError cond).

(** ** Strings *)

(** [str.isspace] on the ASCII range: TAB, LF, VT, FF, CR, the four
    separators FS, GS, RS, US, and the space. *)
Definition isspace (ch : ascii) : bool :=
  let n := nat_of_ascii ch in
  ((9 <=? n) && (n <=? 13) || (28 <=? n) && (n <=? 32))%nat.

Fixpoint lstrip (s : string) : string :=
  match s with
  | EmptyString => EmptyString
  | String ch s' => if isspace ch then lstrip s' else s
  end.

Fixpoint rstrip (s : string) : string :=
  match s with
  | EmptyString => EmptyString
  | String ch s' =>
      match rstrip s' with
      | EmptyString => if isspace ch then EmptyString else String ch EmptyString
      | r => String ch r
      end
  end.

(** [s.strip()] *)
Definition strip (s : string) : string := rstrip (lstrip s).

(** [s.startswith(p)] *)
Definition startswith (s p : string) : bool := prefix p s.

(** [s[i:j]] and [s[i:]] for [0 <= i <= j]. *)
Definition slice (i j : nat) (s : string) : string := substring i (j - i) s.
Definition slice_from (i : nat) (s : string) : string :=
  substring i (length s - i) s.

(** [sep.join(l)] *)
Fixpoint join (sep : string) (l : list string) : string :=
  match l with
  | [] => ""
  | [s] => s
  | s :: l' => s ++ sep ++ join sep l'
  end.

Definition is_digit (ch : ascii) : bool :=
  let n := nat_of_ascii ch in ((48 <=? n) && (n <=? 57))%nat.

Fixpoint digits_value (acc : Z) (s : string) : option Z :=
  match s with
  | EmptyString => Some acc
  | String ch s' =>
      if is_digit ch
      then digits_value (10 * acc + Z.of_nat (nat_of_ascii ch) - 48)%Z s'
      else None
  end.

Definition invalid_literal (s : string) : exn :=
  ValueError ("invalid literal for int() with base 10: " ++ s).

(** [int(s)] for a string: surrounding whitespace is dropped, then an
    optional sign and at least one decimal digit must remain. *)
Definition int (s : string) : result Z :=
  let unsigned (d : string) : option Z :=
    match d with
    | EmptyString => None
    | _ => digits_value 0%Z d
    end in
  let r :=
    match strip s with
    | String "+"%char d => unsigned d
    | String "-"%char d => option_map Z.opp (unsigned d)
    | d => unsigned d
    end in
  match r with
  | Some n => Ok n
  | None => Raise (invalid_literal s)
  end.

(** ** The functional code enumeration *)

(** Modelled from the spec: the enumeration [LibxcFuncs] is imported
    from [pymatgen/io/abinit/libxcfuncs.py], which is missing.  The spec
    describes it as an opaque enumeration, compared by identity, whose
    values carry a type, a name and the two kind predicates, and that
    resolves an integer to a value.  The fourteen members are the ones
    [xc.py] names in its two tables. *)
Class LibxcProvider : Type := {
  LibxcFuncs : Type;
  LibxcFuncs_eq_dec : forall f g : LibxcFuncs, {f = g} + {f <> g};
  (** [LibxcFuncs(n)]: the member whose value is [n], if any *)
  LibxcFuncs_of_value : Z -> option LibxcFuncs;
  is_x_kind : LibxcFuncs -> bool;
  is_c_kind : LibxcFuncs -> bool;
  libxc_type : LibxcFuncs -> string;
  libxc_name : LibxcFuncs -> string;
  LDA_X : LibxcFuncs;
  LDA_C_PW : LibxcFuncs;
  GGA_X_PW91 : LibxcFuncs;
  GGA_C_PW91 : LibxcFuncs;
  GGA_X_PBE : LibxcFuncs;
  GGA_C_PBE : LibxcFuncs;
  GGA_X_RPBE : LibxcFuncs;
  GGA_X_PBE_R : LibxcFuncs;
  GGA_X_PBE_SOL : LibxcFuncs;
  GGA_C_PBE_SOL : LibxcFuncs;
  GGA_X_AM05 : LibxcFuncs;
  GGA_C_AM05 : LibxcFuncs;
  GGA_X_B88 : LibxcFuncs;
  GGA_C_LYP : LibxcFuncs
}.

(** An instance of the interface, to run the class on concrete codes:
    the fourteen members with the identifiers libxc gives them, the
    member's own identifier as its name, its family as its type, and the
    kind as the identifier spells it. *)
Module Libxc.

Inductive func : Type :=
| LDA_X | LDA_C_PW
| GGA_X_PW91 | GGA_C_PW91
| GGA_X_PBE | GGA_C_PBE
| GGA_X_RPBE | GGA_X_PBE_R
| GGA_X_PBE_SOL | GGA_C_PBE_SOL
| GGA_X_AM05 | GGA_C_AM05
| GGA_X_B88 | GGA_C_LYP.

Definition func_eq_dec (f g : func) : {f = g} + {f <> g}.
Proof. decide equality. Defined.

Definition members : list func :=
  [ LDA_X; LDA_C_PW; GGA_X_PW91; GGA_C_PW91; GGA_X_PBE; GGA_C_PBE;
    GGA_X_RPBE; GGA_X_PBE_R; GGA_X_PBE_SOL; GGA_C_PBE_SOL;
    GGA_X_AM05; GGA_C_AM05; GGA_X_B88; GGA_C_LYP ].

Definition value (f : func) : Z :=
  match f with
  | LDA_X => 1 | LDA_C_PW => 12
  | GGA_X_PBE => 101 | GGA_X_PBE_R => 102 | GGA_X_B88 => 106
  | GGA_X_PW91 => 109 | GGA_X_PBE_SOL => 116 | GGA_X_RPBE => 117
  | GGA_X_AM05 => 120
  | GGA_C_PBE => 130 | GGA_C_LYP => 131 | GGA_C_PBE_SOL => 133
  | GGA_C_PW91 => 134 | GGA_C_AM05 => 135
  end%Z.

Definition of_value (n : Z) : option func :=
  find (fun f => Z.eqb (value f) n) members.

Definition is_x (f : func) : bool :=
  match f with
  | LDA_X | GGA_X_PW91 | GGA_X_PBE | GGA_X_RPBE | GGA_X_PBE_R
  | GGA_X_PBE_SOL | GGA_X_AM05 | GGA_X_B88 => true
  | _ => false
  end.

Definition family (f : func) : string :=
  match f with
  | LDA_X | LDA_C_PW => "LDA"
  | _ => "GGA"
  end.

Definition ident (f : func) : string :=
  match f with
  | LDA_X => "LDA_X" | LDA_C_PW => "LDA_C_PW"
  | GGA_X_PW91 => "GGA_X_PW91" | GGA_C_PW91 => "GGA_C_PW91"
  | GGA_X_PBE => "GGA_X_PBE" | GGA_C_PBE => "GGA_C_PBE"
  | GGA_X_RPBE => "GGA_X_RPBE" | GGA_X_PBE_R => "GGA_X_PBE_R"
  | GGA_X_PBE_SOL => "GGA_X_PBE_SOL" | GGA_C_PBE_SOL => "GGA_C_PBE_SOL"
  | GGA_X_AM05 => "GGA_X_AM05" | GGA_C_AM05 => "GGA_C_AM05"
  | GGA_X_B88 => "GGA_X_B88" | GGA_C_LYP => "GGA_C_LYP"
  end.

Definition provider : LibxcProvider :=
  Build_LibxcProvider func func_eq_dec of_value
    is_x (fun f => negb (is_x f)) family ident
    LDA_X LDA_C_PW GGA_X_PW91 GGA_C_PW91 GGA_X_PBE GGA_C_PBE
    GGA_X_RPBE GGA_X_PBE_R GGA_X_PBE_SOL GGA_C_PBE_SOL
    GGA_X_AM05 GGA_C_AM05 GGA_X_B88 GGA_C_LYP.

End Libxc.

(** The namedtuple [type_name = namedtuple("type_name", "type, name")]. *)
Module type_name.
Record t : Type := mk { type : string; name : string }.
End type_name.

Section Objects.
Context {P : LibxcProvider}.

(** The Python values that can reach the class: [None], a member of
    the enumeration, a string, a tuple. *)
#[local] Unset Elimination Schemes.
Inductive pyobj : Type :=
| PNone
| PFunc (f : LibxcFuncs)
| PStr (s : string)
| PTuple (items : list pyobj).
#[local] Set Elimination Schemes.

(** [a == b] on these values: identity for [None] and for members,
    contents for strings, element by element for tuples. *)
Fixpoint pyobj_eqb (a b : pyobj) {struct a} : bool :=
  match a, b with
  | PNone, PNone => true
  | PFunc f, PFunc g => if LibxcFuncs_eq_dec f g then true else false
  | PStr s, PStr t => String.eqb s t
  | PTuple l, PTuple m =>
      (fix all2 (l m : list pyobj) {struct l} : bool :=
         match l, m with
         | [], [] => true
         | u :: l', v :: m' => pyobj_eqb u v && all2 l' m'
         | _, _ => false
         end) l m
  | _, _ => false
  end.

(** [LibxcFuncs(n)] raises [ValueError] when no member has value [n]. *)
Definition LibxcFuncs_call (n : Z) : result LibxcFuncs :=
  match LibxcFuncs_of_value n with
  | Some f => Ok f
  | None => Raise (ValueError "not a valid LibxcFuncs")
  end.

(** [o.name] *)
Definition getattr_name (o : pyobj) : result string :=
  match o with
  | PFunc f => Ok (libxc_name f)
  | _ => Raise (AttributeError "name")
  end.

(** [len(o)] *)
Definition len (o : pyobj) : result nat :=
  match o with
  | PTuple l => Ok (List.length l)
  | PStr s => Ok (String.length s)
  | _ => Raise (TypeError "object has no len()")
  end.

(** [o[i]] for [0 <= i] *)
Definition getitem (o : pyobj) (i : nat) : result pyobj :=
  match o with
  | PTuple l =>
      match nth_error l i with
      | Some v => Ok v
      | None => Raise (IndexError "tuple index out of range")
      end
  | PStr s =>
      match String.get i s with
      | Some ch => Ok (PStr (String ch EmptyString))
      | None => Raise (IndexError "string index out of range")
      end
  | _ => Raise (TypeError "object is not subscriptable")
  end.

(** *** Dictionaries, in insertion order *)

Definition dict (V : Type) : Type := list (pyobj * V).

(** The value stored under the first key equal to [k]. *)
Fixpoint dict_get {V : Type} (d : dict V) (k : pyobj) : option V :=
  match d with
  | [] => None
  | (k', v) :: d' => if pyobj_eqb k' k then Some v else dict_get d' k
  end.

(** [k in d] *)
Definition dict_contains {V : Type} (d : dict V) (k : pyobj) : bool :=
  match dict_get d k with
  | Some _ => true
  | None => false
  end.

(** [d[k]] *)
Definition dict_getitem {V : Type} (d : dict V) (k : pyobj) : result V :=
  match dict_get d k with
  | Some v => Ok v
  | None => Raise KeyError
  end.

(** [d[k] = v]: a key already present keeps its place and takes the
    new value, a new key goes to the end. *)
Fixpoint dict_setitem {V : Type} (d : dict V) (k : pyobj) (v : V) : dict V :=
  match d with
  | [] => [(k, v)]
  | (k', v') :: d' =>
      if pyobj_eqb k' k then (k', v) :: d' else (k', v') :: dict_setitem d' k v
  end.

(** [OrderedDict(pairs)] and [{...}] *)
Definition OrderedDict {V : Type} (pairs : list (pyobj * V)) : dict V :=
  fold_left (fun d kv => dict_setitem d (fst kv) (snd kv)) pairs [].

End Objects.

(** ** The class *)

Module XcFunctional.

Section Class.
Context {P : LibxcProvider}.

(** [hash] of a string, left to the interpreter. *)
Variable str_hash : string -> Z.

(** An instance: the three attributes set by [__init__]. *)
Record t : Type := mk { xc : pyobj; x : pyobj; c : pyobj }.

(** What [__eq__] can be handed: another instance or a plain value. *)
Inductive operand : Type :=
| OXc (other : t)
| OObj (other : pyobj).

(** The literal handed to [OrderedDict]: [(x, c) --> type_name]. *)
Definition aliases_literal : list (pyobj * type_name.t) :=
  [ (PTuple [PFunc LDA_X; PFunc LDA_C_PW], type_name.mk "LDA" "PW");
    (PTuple [PFunc GGA_X_PW91; PFunc GGA_C_PW91], type_name.mk "GGA" "PW91");
    (PTuple [PFunc GGA_X_PBE; PFunc GGA_C_PBE], type_name.mk "GGA" "PBE");
    (PTuple [PFunc GGA_X_RPBE; PFunc GGA_C_PBE], type_name.mk "GGA" "RPBE");
    (PTuple [PFunc GGA_X_PBE_R; PFunc GGA_C_PBE], type_name.mk "GGA" "revPBE");
    (PTuple [PFunc GGA_X_PBE_SOL; PFunc GGA_C_PBE_SOL], type_name.mk "GGA" "PBEsol");
    (PTuple [PFunc GGA_X_AM05; PFunc GGA_C_AM05], type_name.mk "GGA" "AM05");
    (PTuple [PFunc GGA_X_B88; PFunc GGA_C_LYP], type_name.mk "GGA" "BLYP") ].

Definition aliases : dict type_name.t := OrderedDict aliases_literal.

(** Keyword arguments: [dict(x=..., c=...)]. *)
Definition kwargs : Type := list (string * pyobj).

(** Correspondence between Abinit ixc and libxc notation. *)
Definition abinitixc_to_libxc : dict kwargs :=
  OrderedDict
    [ (PStr "11", [("x", PFunc GGA_X_PBE); ("c", PFunc GGA_C_PBE)]) ].

(** List of registered names. *)
Definition known_names : list string :=
  map (fun kv => type_name.name (snd kv)) aliases.

Definition is_None (o : pyobj) : bool :=
  match o with
  | PNone => true
  | _ => false
  end.

(** The consistency check of the constructor, then the assignment
    [self.xc, self.x, self.c = xc, x, c]. *)
Definition __init__ (xc x c : pyobj) : result t :=
  if is_None xc then
    if is_None x || is_None c
    then Raise (ValueError "x or c must be specified when xc is None")
    else Ok (mk xc x c)
  else
    if negb (is_None x) || negb (is_None c)
    then Raise (ValueError "x and c should be None when xc is specified")
    else Ok (mk xc x c).

Fixpoint kwarg (kw : kwargs) (key : string) : pyobj :=
  match kw with
  | [] => PNone
  | (k, v) :: kw' => if String.eqb k key then v else kwarg kw' key
  end.

(** [cls] called with the keyword dictionary [kw] unpacked: the
    parameters are [xc], [x] and [c], each [None] when not given. *)
Definition cls_kwargs (kw : kwargs) : result t :=
  if forallb (fun kv => existsb (String.eqb (fst kv)) ["xc"; "x"; "c"]) kw
  then __init__ (kwarg kw "xc") (kwarg kw "x") (kwarg kw "c")
  else Raise (TypeError "__init__() got an unexpected keyword argument").

(** Build the object from Abinit ixc (string). *)
Definition from_abinit_ixc (ixc_string : string) : result t :=
  let ixc := strip ixc_string in
  if negb (startswith ixc "-") then
    kw <- dict_getitem abinitixc_to_libxc (PStr ixc) ;;
    cls_kwargs kw
  else
    (* a six-digit number in the form XXXCCC or CCCXXX *)
    _ <- assert (length (slice_from 1 ixc) =? 6)%nat "len(ixc[1:]) == 6" ;;
    let first := slice 1 4 ixc in
    let last := slice_from 4 ixc in
    nx <- int first ;;
    x <- LibxcFuncs_call nx ;;
    nc <- int last ;;
    c <- LibxcFuncs_call nc ;;
    let (x, c) := if negb (is_x_kind x) then (c, x) else (x, c) in (* Swap *)
    _ <- assert (is_x_kind x && is_c_kind c) "x.is_x_kind and c.is_c_kind" ;;
    __init__ PNone (PFunc x) (PFunc c).

(** The body of the loop [for k, type_name in cls.aliases.items()],
    and the [raise] that follows it.  ["Wrong key: %s" % k] formats a
    string, and fails on a tuple that has not exactly one element. *)
Fixpoint from_name_loop (items : list (pyobj * type_name.t)) (name : string)
  : result t :=
  match items with
  | [] => Raise (ValueError ("Cannot find name=" ++ name ++ " in aliases"))
  | (k, tn) :: items' =>
      if String.eqb (type_name.name tn) name then
        n <- len k ;;
        if (n =? 1)%nat then __init__ k PNone PNone
        else if (n =? 2)%nat then
          k0 <- getitem k 0 ;;
          k1 <- getitem k 1 ;;
          __init__ PNone k0 k1
        else
          match k with
          | PStr s => Raise (ValueError ("Wrong key: " ++ s))
          | _ => Raise (TypeError "string formatting")
          end
      else from_name_loop items' name
  end.

(** Build the object from one of the registered names. *)
Definition from_name (name : string) : result t :=
  from_name_loop aliases name.

(** The type of the functional.  The two statements after
    [raise NotImplementedError()] are never run. *)
Definition type (self : t) : result string :=
  if dict_contains aliases (xc self) then
    tn <- dict_getitem aliases (xc self) ;;
    Ok (type_name.type tn)
  else
    let xc := PTuple [x self; c self] in
    if dict_contains aliases xc then
      tn <- dict_getitem aliases xc ;;
      Ok (type_name.type tn)
    else Raise NotImplementedError.

(** The name of the functional.  If the functional is not found in the
    aliases, the string has the form X_NAME+C_NAME. *)
Definition name (self : t) : result string :=
  if dict_contains aliases (xc self) then
    tn <- dict_getitem aliases (xc self) ;;
    Ok (type_name.name tn)
  else
    let xc' := PTuple [x self; c self] in
    if dict_contains aliases xc' then
      tn <- dict_getitem aliases xc' ;;
      Ok (type_name.name tn)
    else if negb (is_None (xc self)) then getattr_name (xc self)
    else
      xn <- getattr_name (x self) ;;
      cn <- getattr_name (c self) ;;
      Ok (join "+" [xn; cn]).

(** String in the form [type-name], e.g. GGA-PBE. *)
Definition type_name (self : t) : result string :=
  ty <- type self ;;
  nm <- name self ;;
  Ok (join "-" [ty; nm]).

Definition __repr__ (self : t) : result string := name self.

Definition __hash__ (self : t) : result Z :=
  nm <- name self ;;
  Ok (str_hash nm).

(** [s == o] for a string [s]. *)
Definition str_eq (s : string) (o : pyobj) : bool :=
  match o with
  | PStr s' => String.eqb s s'
  | _ => false
  end.

Definition __eq__ (self : t) (other : operand) : result bool :=
  match other with
  | OObj PNone => Ok false
  | OXc o =>
      n <- name self ;;
      m <- name o ;;
      Ok (String.eqb n m)
  | OObj o =>
      (* assume other is a string *)
      n <- name self ;;
      Ok (str_eq n o)
  end.

Definition __ne__ (self : t) (other : operand) : result bool :=
  b <- __eq__ self other ;;
  Ok (negb b).

End Class.

End XcFunctional.

(** ** Vocabulary of the properties *)

(** A three-digit code of the packed form, as in [-101130]. *)
Definition three_digits (s : string) : bool :=
  match s with
  | String a (String b (String c EmptyString)) =>
      is_digit a && is_digit b && is_digit c
  | _ => false
  end.

Section Identities.
Context {P : LibxcProvider}.

(** An argument of the constructor as its docstring types it: a member
    of the enumeration, or [None]. *)
Definition of_code (o : option LibxcFuncs) : pyobj :=
  match o with
  | Some f => PFunc f
  | None => PNone
  end.

(** The two shapes of an identity: one combined code, or an exchange
    code with a correlation code. *)
Inductive identity : XcFunctional.t -> Prop :=
| identity_xc (f : LibxcFuncs) :
    identity (XcFunctional.mk (PFunc f) PNone PNone)
| identity_pair (fx fc : LibxcFuncs) :
    identity (XcFunctional.mk PNone (PFunc fx) (PFunc fc)).

(** The instances the three constructors return. *)
Inductive built : XcFunctional.t -> Prop :=
| built_init (oxc ox oc : option LibxcFuncs) (a : XcFunctional.t) :
    XcFunctional.__init__ (of_code oxc) (of_code ox) (of_code oc) = Ok a ->
    built a
| built_from_abinit_ixc (ixc_string : string) (a : XcFunctional.t) :
    XcFunctional.from_abinit_ixc ixc_string = Ok a ->
    built a
| built_from_name (name : string) (a : XcFunctional.t) :
    XcFunctional.from_name name = Ok a ->
    built a.

End Identities.

(** * Properties *)

(** ** Values and dictionaries *)

Section ObjectFacts.
Context {P : LibxcProvider}.

(** Induction on values, with the hypothesis for every element of a
    tuple. *)
Lemma pyobj_tuple_ind (Q : pyobj -> Prop) :
  Q PNone ->
  (forall f, Q (PFunc f)) ->
  (forall s, Q (PStr s)) ->
  (forall l, Forall Q l -> Q (PTuple l)) ->
  forall o, Q o.
Proof.
  intros HN HF HS HT.
  refine (fix go (o : pyobj) : Q o :=
            match o with
            | PNone => HN
            | PFunc f => HF f
            | PStr s => HS s
            | PTuple l => HT l _
            end).
  induction l as [|u l IH]; constructor; [apply go | exact IH].
Qed.

Lemma pyobj_eqb_refl (a : pyobj) : pyobj_eqb a a = true.
Proof.
  induction a as [|f|s|l IH] using pyobj_tuple_ind; simpl.
  - reflexivity.
  - destruct (LibxcFuncs_eq_dec f f); congruence.
  - apply String.eqb_refl.
  - induction IH as [|u l Hu _ IHl]; [reflexivity|].
    rewrite Hu. exact IHl.
Qed.

Lemma pyobj_eqb_eq (a b : pyobj) : pyobj_eqb a b = true -> a = b.
Proof.
  revert b.
  induction a as [|f|s|l IH] using pyobj_tuple_ind; intros [|g|t|m]; simpl;
    try discriminate; try reflexivity.
  - destruct (LibxcFuncs_eq_dec f g); [congruence | discriminate].
  - intros H. apply String.eqb_eq in H. congruence.
  - intros H. f_equal. revert m H.
    induction IH as [|u l Hu _ IHl]; intros [|v m] H; try discriminate.
    + reflexivity.
    + apply andb_prop in H. destruct H as [Huv Hlm].
      f_equal; [apply Hu, Huv | apply IHl, Hlm].
Qed.

Lemma pyobj_eqb_neq (a b : pyobj) : a <> b -> pyobj_eqb a b = false.
Proof.
  intros Hab. destruct (pyobj_eqb a b) eqn:E; [|reflexivity].
  elim Hab. apply pyobj_eqb_eq, E.
Qed.

Variable V : Type.
Implicit Types (d : dict V) (k q : pyobj) (v : V).

Lemma dict_get_In d k v :
  NoDup (map fst d) -> In (k, v) d -> dict_get d k = Some v.
Proof.
  induction d as [|[k' v'] d IH]; simpl; intros Hnd Hin; [contradiction|].
  inversion Hnd as [|? ? Hk' Hd]; subst.
  destruct Hin as [Heq | Hin].
  - inversion Heq; subst. now rewrite pyobj_eqb_refl.
  - destruct (pyobj_eqb k' k) eqn:E.
    + apply pyobj_eqb_eq in E. subst k'.
      elim Hk'. apply (in_map fst) in Hin. exact Hin.
    + apply IH; assumption.
Qed.

Lemma dict_get_absent d q :
  (forall k v, In (k, v) d -> pyobj_eqb k q = false) -> dict_get d q = None.
Proof.
  induction d as [|[k' v'] d IH]; simpl; intros H; [reflexivity|].
  rewrite (H k' v') by now left.
  apply IH. intros k v Hin. apply (H k v). now right.
Qed.

Lemma dict_setitem_In d k v k0 v0 :
  In (k, v) (dict_setitem d k0 v0) -> (k, v) = (k0, v0) \/ In (k, v) d.
Proof.
  induction d as [|[k' v'] d IH]; simpl.
  - intros [H | []]. left. congruence.
  - destruct (pyobj_eqb k' k0) eqn:E; simpl.
    + apply pyobj_eqb_eq in E. subst k'.
      intros [H | H]; [left; congruence | right; now right].
    + intros [H | H]; [right; now left|].
      destruct (IH H) as [H' | H']; [now left | right; now right].
Qed.

Lemma dict_setitem_NoDup d k v :
  NoDup (map fst d) -> NoDup (map fst (dict_setitem d k v)).
Proof.
  induction d as [|[k' v'] d IH]; simpl; intros Hnd.
  - constructor; [intros [] | constructor].
  - inversion Hnd as [|? ? Hk' Hd]; subst.
    destruct (pyobj_eqb k' k) eqn:E; simpl.
    + constructor; assumption.
    + constructor; [|apply IH, Hd].
      intros Hin. apply in_map_iff in Hin.
      destruct Hin as [[k1 v1] [Hfst Hin]]. simpl in Hfst. subst k1.
      apply dict_setitem_In in Hin. destruct Hin as [Heq | Hin].
      * inversion Heq; subst. rewrite pyobj_eqb_refl in E. discriminate.
      * apply Hk'. apply (in_map fst) in Hin. exact Hin.
Qed.

(** A property of the empty dictionary that every insertion of a
    listed pair keeps holds of the dictionary built from the list. *)
Lemma OrderedDict_inv (I : dict V -> Prop) (pairs : list (pyobj * V)) :
  I [] ->
  (forall d k v, I d -> In (k, v) pairs -> I (dict_setitem d k v)) ->
  I (OrderedDict pairs).
Proof.
  unfold OrderedDict. generalize (@nil (pyobj * V)) as d0.
  induction pairs as [|[k v] pairs IH]; simpl; intros d0 H0 Hstep.
  - exact H0.
  - apply IH.
    + apply Hstep; [exact H0 | now left].
    + intros d k1 v1 Hd Hin. apply Hstep; [exact Hd | now right].
Qed.

Lemma OrderedDict_NoDup (pairs : list (pyobj * V)) :
  NoDup (map fst (OrderedDict pairs)).
Proof.
  apply OrderedDict_inv.
  - constructor.
  - intros d k v Hd _. apply dict_setitem_NoDup, Hd.
Qed.

Lemma OrderedDict_In (pairs : list (pyobj * V)) k v :
  In (k, v) (OrderedDict pairs) -> In (k, v) pairs.
Proof.
  revert k v.
  apply (OrderedDict_inv (fun d => forall k v, In (k, v) d -> In (k, v) pairs)).
  - intros k v [].
  - intros d k0 v0 Hd Hin k v H.
    apply dict_setitem_In in H. destruct H as [H | H].
    + inversion H; subst. exact Hin.
    + apply Hd, H.
Qed.

(** With pairwise distinct keys the dictionary is the list itself. *)
Lemma dict_setitem_fresh d k v :
  ~ In k (map fst d) -> dict_setitem d k v = (d ++ [(k, v)])%list.
Proof.
  induction d as [|[k' v'] d IH]; simpl; intros Hk; [reflexivity|].
  rewrite pyobj_eqb_neq by (intros ->; apply Hk; now left).
  f_equal. apply IH. intros Hin. apply Hk. now right.
Qed.

Lemma OrderedDict_distinct (pairs : list (pyobj * V)) :
  NoDup (map fst pairs) -> OrderedDict pairs = pairs.
Proof.
  unfold OrderedDict.
  enough (H : forall d0, NoDup (map fst (d0 ++ pairs)%list) ->
              fold_left (fun d kv => dict_setitem d (fst kv) (snd kv)) pairs d0
              = (d0 ++ pairs)%list) by (apply (H [])).
  induction pairs as [|[k v] pairs IH]; simpl; intros d0 Hnd.
  - now rewrite app_nil_r.
  - rewrite dict_setitem_fresh.
    + rewrite IH; rewrite <- app_assoc; [reflexivity | exact Hnd].
    + rewrite map_app in Hnd. simpl in Hnd.
      apply NoDup_remove_2 in Hnd. intros Hin. apply Hnd.
      apply in_or_app. now left.
Qed.

End ObjectFacts.

(** ** The alias table *)

Section AliasFacts.
Context {P : LibxcProvider}.

Lemma dict_get_Some_In (V : Type) (d : dict V) (q : pyobj) (v : V) :
  dict_get d q = Some v -> In (q, v) d.
Proof.
  induction d as [|[k' v'] d IH]; simpl; [discriminate|].
  destruct (pyobj_eqb k' q) eqn:E.
  - intros H. apply pyobj_eqb_eq in E. left. congruence.
  - intros H. right. apply IH, H.
Qed.

Lemma aliases_NoDup : NoDup (map fst XcFunctional.aliases).
Proof. apply OrderedDict_NoDup. Qed.

Lemma aliases_In_literal (k : pyobj) (r : type_name.t) :
  In (k, r) XcFunctional.aliases -> In (k, r) XcFunctional.aliases_literal.
Proof. apply OrderedDict_In. Qed.

(** Every key of the table is a pair of members. *)
Lemma aliases_literal_key (k : pyobj) (r : type_name.t) :
  In (k, r) XcFunctional.aliases_literal ->
  exists fx fc, k = PTuple [PFunc fx; PFunc fc].
Proof.
  unfold XcFunctional.aliases_literal. simpl. intros H.
  repeat (destruct H as [H | H]; [injection H as <- _; eauto|]).
  contradiction.
Qed.

(** No two entries of the table share a name. *)
Lemma aliases_literal_name_inj (k k' : pyobj) (r r' : type_name.t) :
  In (k, r) XcFunctional.aliases_literal ->
  In (k', r') XcFunctional.aliases_literal ->
  type_name.name r = type_name.name r' ->
  (k, r) = (k', r').
Proof.
  unfold XcFunctional.aliases_literal. simpl. intros H H' Hn.
  repeat match goal with
         | H : _ \/ _ |- _ => destruct H as [H | H]
         | H : False |- _ => contradiction
         | H : (_, _) = (_, _) |- _ => injection H as <- <-
         end;
    simpl in Hn; solve [reflexivity | discriminate Hn].
Qed.

Lemma aliases_key (q : pyobj) (r : type_name.t) :
  dict_get XcFunctional.aliases q = Some r ->
  exists fx fc, q = PTuple [PFunc fx; PFunc fc].
Proof.
  intros H. apply dict_get_Some_In, aliases_In_literal in H.
  eapply aliases_literal_key, H.
Qed.

Lemma aliases_no_None : dict_contains XcFunctional.aliases PNone = false.
Proof.
  unfold dict_contains.
  destruct (dict_get XcFunctional.aliases PNone) eqn:E; [|reflexivity].
  apply aliases_key in E. destruct E as (fx & fc & E). discriminate.
Qed.

Lemma aliases_no_func (f : LibxcFuncs) :
  dict_contains XcFunctional.aliases (PFunc f) = false.
Proof.
  unfold dict_contains.
  destruct (dict_get XcFunctional.aliases (PFunc f)) eqn:E; [|reflexivity].
  apply aliases_key in E. destruct E as (fx & fc & E). discriminate.
Qed.

Lemma aliases_no_pair_with_None (o : pyobj) :
  dict_contains XcFunctional.aliases (PTuple [PNone; o]) = false.
Proof.
  unfold dict_contains.
  destruct (dict_get XcFunctional.aliases (PTuple [PNone; o])) eqn:E;
    [|reflexivity].
  apply aliases_key in E. destruct E as (fx & fc & E). discriminate.
Qed.

(** The scan stops at the entry asked for, when names identify
    entries. *)
Lemma from_name_loop_found (items : list (pyobj * type_name.t))
      (fx fc : LibxcFuncs) (r : type_name.t) :
  (forall k' r', In (k', r') items ->
                 type_name.name r' = type_name.name r ->
                 (k', r') = (PTuple [PFunc fx; PFunc fc], r)) ->
  In (PTuple [PFunc fx; PFunc fc], r) items ->
  XcFunctional.from_name_loop items (type_name.name r)
  = Ok (XcFunctional.mk PNone (PFunc fx) (PFunc fc)).
Proof.
  induction items as [|[k' r'] items IH]; simpl; intros Huniq Hin;
    [contradiction|].
  destruct (String.eqb (type_name.name r') (type_name.name r)) eqn:E.
  - apply String.eqb_eq in E.
    specialize (Huniq k' r' (or_introl eq_refl) E).
    injection Huniq as -> ->. reflexivity.
  - destruct Hin as [Hin | Hin].
    + injection Hin as -> ->. rewrite String.eqb_refl in E. discriminate.
    + apply IH; [|exact Hin].
      intros k1 r1 H1. apply Huniq. now right.
Qed.

Lemma from_name_alias (fx fc : LibxcFuncs) (r : type_name.t) :
  In (PTuple [PFunc fx; PFunc fc], r) XcFunctional.aliases ->
  XcFunctional.from_name (type_name.name r)
  = Ok (XcFunctional.mk PNone (PFunc fx) (PFunc fc)).
Proof.
  intros Hin. apply from_name_loop_found; [|exact Hin].
  intros k' r' Hin' Hn.
  apply aliases_literal_name_inj; auto using aliases_In_literal.
Qed.

(** An identity whose pair is a key of the table takes type and name
    from the entry. *)
Lemma type_alias (x c : pyobj) (r : type_name.t) :
  In (PTuple [x; c], r) XcFunctional.aliases ->
  XcFunctional.type (XcFunctional.mk PNone x c) = Ok (type_name.type r).
Proof.
  intros Hin. unfold XcFunctional.type. simpl.
  rewrite aliases_no_None.
  unfold dict_contains, dict_getitem.
  now rewrite (dict_get_In _ _ _ _ aliases_NoDup Hin).
Qed.

Lemma name_alias (x c : pyobj) (r : type_name.t) :
  In (PTuple [x; c], r) XcFunctional.aliases ->
  XcFunctional.name (XcFunctional.mk PNone x c) = Ok (type_name.name r).
Proof.
  intros Hin. unfold XcFunctional.name. simpl.
  rewrite aliases_no_None.
  unfold dict_contains, dict_getitem.
  now rewrite (dict_get_In _ _ _ _ aliases_NoDup Hin).
Qed.

(** C1. For every record of the alias table, [from_name] on the
    record's name succeeds, and [type_name] of the identity it builds is
    the record's type, a hyphen, and the record's name. *)
Theorem from_name_type_name (k : pyobj) (r : type_name.t) :
  In (k, r) XcFunctional.aliases ->
  exists a,
    XcFunctional.from_name (type_name.name r) = Ok a /\
    XcFunctional.type_name a
    = Ok (type_name.type r ++ "-" ++ type_name.name r).
Proof.
  intros Hin.
  destruct (aliases_literal_key k r (aliases_In_literal k r Hin))
    as (fx & fc & ->).
  exists (XcFunctional.mk PNone (PFunc fx) (PFunc fc)). split.
  - apply from_name_alias, Hin.
  - unfold XcFunctional.type_name.
    rewrite (type_alias _ _ _ Hin), (name_alias _ _ _ Hin). reflexivity.
Qed.

End AliasFacts.

(** ** Strings of the packed form *)

Lemma is_digit_not_space (ch : ascii) : is_digit ch = true -> isspace ch = false.
Proof.
  unfold is_digit, isspace. generalize (nat_of_ascii ch) as n. intros n H.
  apply andb_prop in H. destruct H as [H _]. apply Nat.leb_le in H.
  apply orb_false_iff. split; apply andb_false_iff; right;
    apply Nat.leb_gt; lia.
Qed.

Lemma three_digits_inv (s : string) :
  three_digits s = true ->
  exists a b c,
    s = String a (String b (String c EmptyString)) /\
    isspace a = false /\ isspace b = false /\ isspace c = false.
Proof.
  destruct s as [|a [|b [|c [|]]]]; simpl; try discriminate.
  intros H. apply andb_prop in H. destruct H as [H Hc].
  apply andb_prop in H. destruct H as [Ha Hb].
  exists a, b, c. auto using is_digit_not_space.
Qed.

(** The shape of a packed string, and what the slices cut out of it. *)
Lemma packed_shape (u v : string) :
  three_digits u = true -> three_digits v = true ->
  let ixc := strip ("-" ++ u ++ v) in
  ixc = "-" ++ u ++ v /\
  startswith ixc "-" = true /\
  length (slice_from 1 ixc) = 6 /\
  slice 1 4 ixc = u /\
  slice_from 4 ixc = v.
Proof.
  intros Hu Hv.
  destruct (three_digits_inv u Hu) as (a & b & c & -> & Ha & Hb & Hc).
  destruct (three_digits_inv v Hv) as (d & e & f & -> & Hd & He & Hf).
  assert (Hs : strip ("-" ++ String a (String b (String c ""))
                          ++ String d (String e (String f "")))
               = "-" ++ String a (String b (String c ""))
                     ++ String d (String e (String f ""))).
  { unfold strip. simpl. rewrite Hf. reflexivity. }
  cbv zeta. rewrite Hs. repeat split; reflexivity.
Qed.

Lemma substring_all (s : string) : substring 0 (length s) s = s.
Proof. induction s as [|ch s IH]; simpl; [reflexivity | now rewrite IH]. Qed.

(** [ixc[1:]] is what follows the first character. *)
Lemma slice_from_1 (ch : ascii) (rest : string) :
  slice_from 1 (String ch rest) = rest.
Proof.
  unfold slice_from. simpl. rewrite Nat.sub_0_r. apply substring_all.
Qed.

Lemma startswith_hyphen (rest : string) :
  startswith (String "-"%char rest) "-" = true.
Proof. destruct rest; reflexivity. Qed.

(** ** Construction *)

Section Construction.
Context {P : LibxcProvider}.

Lemma is_None_true (o : pyobj) : XcFunctional.is_None o = true -> o = PNone.
Proof. destruct o; simpl; congruence. Qed.

Lemma is_None_false (o : pyobj) : XcFunctional.is_None o = false -> o <> PNone.
Proof. destruct o; simpl; congruence. Qed.

Ltac none_case o :=
  let E := fresh "E" in
  destruct (XcFunctional.is_None o) eqn:E;
  [apply is_None_true in E | apply is_None_false in E].

(** C3. The constructor raises [ValueError] exactly when the arguments
    break mutual exclusivity: [xc] is [None] and one of [x], [c] is
    [None], or [xc] is given and one of [x], [c] is given too.  In every
    other case it returns the instance holding the three arguments as
    they were passed; it raises nothing but [ValueError]. *)
Theorem init_mutual_exclusivity (xc x c : pyobj) :
  let violated :=
    (xc = PNone /\ (x = PNone \/ c = PNone)) \/
    (xc <> PNone /\ (x <> PNone \/ c <> PNone)) in
  ((exists msg, XcFunctional.__init__ xc x c = Raise (ValueError msg))
   <-> violated) /\
  (XcFunctional.__init__ xc x c = Ok (XcFunctional.mk xc x c)
   <-> ~ violated) /\
  (forall e, XcFunctional.__init__ xc x c = Raise e ->
             exists msg, e = ValueError msg).
Proof.
  cbv zeta. unfold XcFunctional.__init__.
  none_case xc; none_case x; none_case c; simpl; repeat split;
    try tauto; try discriminate;
    try (intros _; eexists; reflexivity);
    try (intros [msg H]; discriminate H);
    try (intros e H; injection H as <-; eexists; reflexivity).
Qed.

(** The packed branch, once both halves resolve. *)
Lemma from_abinit_ixc_packed (s : string) (n1 n2 : Z) (f1 f2 : LibxcFuncs) :
  startswith (strip s) "-" = true ->
  length (slice_from 1 (strip s)) = 6 ->
  int (slice 1 4 (strip s)) = Ok n1 -> LibxcFuncs_call n1 = Ok f1 ->
  int (slice_from 4 (strip s)) = Ok n2 -> LibxcFuncs_call n2 = Ok f2 ->
  XcFunctional.from_abinit_ixc s
  = if negb (is_x_kind f1)
    then (_ <- assert (is_x_kind f2 && is_c_kind f1)
                      "x.is_x_kind and c.is_c_kind" ;;
          XcFunctional.__init__ PNone (PFunc f2) (PFunc f1))
    else (_ <- assert (is_x_kind f1 && is_c_kind f2)
                      "x.is_x_kind and c.is_c_kind" ;;
          XcFunctional.__init__ PNone (PFunc f1) (PFunc f2)).
Proof.
  intros Hdash Hlen Hn1 Hf1 Hn2 Hf2.
  unfold XcFunctional.from_abinit_ixc. cbv zeta.
  rewrite Hdash, Hlen, Hn1. cbn [negb Nat.eqb assert bind].
  rewrite Hf1. cbn [bind]. rewrite Hn2. cbn [bind]. rewrite Hf2. cbn [bind].
  destruct (negb (is_x_kind f1)); reflexivity.
Qed.

(** C7. A string that, once trimmed, is a hyphen followed by anything
    but six characters makes [from_abinit_ixc] fail on its length
    assertion. *)
Theorem packed_length_asserted (ixc_string rest : string) :
  strip ixc_string = String "-"%char rest ->
  length rest <> 6 ->
  XcFunctional.from_abinit_ixc ixc_string
  = Raise (AssertionError "len(ixc[1:]) == 6").
Proof.
  intros Hs Hlen. unfold XcFunctional.from_abinit_ixc. cbv zeta.
  rewrite Hs, slice_from_1.
  rewrite startswith_hyphen.
  apply Nat.eqb_neq in Hlen. rewrite Hlen. reflexivity.
Qed.

(** C8. A packed string of the right length whose two halves resolve to
    codes that are not an exchange code with a correlation code, in
    either order, makes [from_abinit_ixc] fail on the kind assertion
    that follows the swap. *)
Theorem packed_kinds_asserted (ixc_string : string) (n1 n2 : Z)
        (f1 f2 : LibxcFuncs) :
  startswith (strip ixc_string) "-" = true ->
  length (slice_from 1 (strip ixc_string)) = 6 ->
  int (slice 1 4 (strip ixc_string)) = Ok n1 -> LibxcFuncs_call n1 = Ok f1 ->
  int (slice_from 4 (strip ixc_string)) = Ok n2 -> LibxcFuncs_call n2 = Ok f2 ->
  ~ ((is_x_kind f1 = true /\ is_c_kind f2 = true) \/
     (is_c_kind f1 = true /\ is_x_kind f2 = true)) ->
  XcFunctional.from_abinit_ixc ixc_string
  = Raise (AssertionError "x.is_x_kind and c.is_c_kind").
Proof.
  intros Hdash Hlen Hn1 Hf1 Hn2 Hf2 Hkinds.
  rewrite (from_abinit_ixc_packed _ _ _ _ _ Hdash Hlen Hn1 Hf1 Hn2 Hf2).
  destruct (is_x_kind f1), (is_c_kind f2), (is_c_kind f1), (is_x_kind f2);
    simpl; try reflexivity; elim Hkinds; auto.
Qed.

End Construction.

(** ** Identities and their names *)

Section IdentityFacts.
Context {P : LibxcProvider}.

Ltac bind_inv H :=
  match type of H with
  | bind ?m _ = Ok _ =>
      let E := fresh "E" in
      destruct m eqn:E; cbn [bind] in H; [|discriminate H]
  end.

Lemma init_pair (fx fc : LibxcFuncs) :
  XcFunctional.__init__ PNone (PFunc fx) (PFunc fc)
  = Ok (XcFunctional.mk PNone (PFunc fx) (PFunc fc)).
Proof. reflexivity. Qed.

(** The translation table has the single key ["11"]. *)
Lemma abinitixc_getitem (ixc : string) :
  dict_getitem XcFunctional.abinitixc_to_libxc (PStr ixc)
  = if String.eqb "11" ixc
    then Ok [("x", PFunc GGA_X_PBE); ("c", PFunc GGA_C_PBE)]
    else Raise KeyError.
Proof.
  unfold XcFunctional.abinitixc_to_libxc, OrderedDict, dict_getitem.
  cbn [fold_left dict_setitem dict_get fst snd pyobj_eqb].
  now destruct (String.eqb "11" ixc).
Qed.

Lemma cls_kwargs_PBE :
  XcFunctional.cls_kwargs [("x", PFunc GGA_X_PBE); ("c", PFunc GGA_C_PBE)]
  = Ok (XcFunctional.mk PNone (PFunc GGA_X_PBE) (PFunc GGA_C_PBE)).
Proof. reflexivity. Qed.

Lemma name_xc (f : LibxcFuncs) :
  XcFunctional.name (XcFunctional.mk (PFunc f) PNone PNone)
  = Ok (libxc_name f).
Proof.
  unfold XcFunctional.name. simpl.
  now rewrite aliases_no_func, aliases_no_pair_with_None.
Qed.

Lemma name_pair_unregistered (fx fc : LibxcFuncs) :
  dict_contains XcFunctional.aliases (PTuple [PFunc fx; PFunc fc]) = false ->
  XcFunctional.name (XcFunctional.mk PNone (PFunc fx) (PFunc fc))
  = Ok (libxc_name fx ++ "+" ++ libxc_name fc).
Proof.
  intros H. unfold XcFunctional.name. simpl.
  now rewrite aliases_no_None, H.
Qed.

Lemma name_pair_registered (fx fc : LibxcFuncs) :
  dict_contains XcFunctional.aliases (PTuple [PFunc fx; PFunc fc]) = true ->
  exists r,
    In (PTuple [PFunc fx; PFunc fc], r) XcFunctional.aliases /\
    XcFunctional.name (XcFunctional.mk PNone (PFunc fx) (PFunc fc))
    = Ok (type_name.name r).
Proof.
  unfold dict_contains.
  destruct (dict_get XcFunctional.aliases (PTuple [PFunc fx; PFunc fc]))
    as [r|] eqn:E; [intros _|discriminate].
  apply dict_get_Some_In in E. exists r. split; [exact E|].
  apply name_alias, E.
Qed.

(** The name of an identity is always defined. *)
Lemma identity_name (a : XcFunctional.t) :
  identity a -> exists n, XcFunctional.name a = Ok n.
Proof.
  intros [f | fx fc].
  - eexists. apply name_xc.
  - destruct (dict_contains XcFunctional.aliases (PTuple [PFunc fx; PFunc fc]))
      eqn:E.
    + destruct (name_pair_registered fx fc E) as (r & _ & Hn). eauto.
    + eexists. apply name_pair_unregistered, E.
Qed.

Lemma init_identity (oxc ox oc : option LibxcFuncs) (a : XcFunctional.t) :
  XcFunctional.__init__ (of_code oxc) (of_code ox) (of_code oc) = Ok a ->
  identity a.
Proof.
  destruct oxc, ox, oc; simpl; intros H; try discriminate;
    injection H as <-; constructor.
Qed.

Lemma from_name_loop_identity (items : list (pyobj * type_name.t))
      (n : string) (a : XcFunctional.t) :
  (forall k r, In (k, r) items -> exists fx fc, k = PTuple [PFunc fx; PFunc fc]) ->
  XcFunctional.from_name_loop items n = Ok a ->
  identity a.
Proof.
  induction items as [|[k r] items IH]; simpl; intros Hkeys H;
    [discriminate|].
  destruct (String.eqb (type_name.name r) n).
  - destruct (Hkeys k r (or_introl eq_refl)) as (fx & fc & ->).
    simpl in H. rewrite init_pair in H. injection H as <-. constructor.
  - apply IH; [|exact H]. intros k' r' Hin. apply (Hkeys k' r'). now right.
Qed.

Lemma from_name_identity (n : string) (a : XcFunctional.t) :
  XcFunctional.from_name n = Ok a -> identity a.
Proof.
  apply from_name_loop_identity. intros k r Hin.
  eapply aliases_literal_key, aliases_In_literal, Hin.
Qed.

Lemma from_abinit_ixc_identity (s : string) (a : XcFunctional.t) :
  XcFunctional.from_abinit_ixc s = Ok a -> identity a.
Proof.
  unfold XcFunctional.from_abinit_ixc. cbv zeta.
  destruct (negb (startswith (strip s) "-")); intros H.
  - rewrite abinitixc_getitem in H.
    destruct (String.eqb "11" (strip s)); [|discriminate H].
    cbn [bind] in H. rewrite cls_kwargs_PBE in H.
    injection H as <-. constructor.
  - repeat bind_inv H.
    match type of H with
    | context [negb (is_x_kind ?f)] => destruct (negb (is_x_kind f))
    end; bind_inv H; rewrite init_pair in H; injection H as <-; constructor.
Qed.

(** Whatever a constructor returns is an identity. *)
Lemma built_identity (a : XcFunctional.t) : built a -> identity a.
Proof.
  intros [oxc ox oc a' H | s a' H | n a' H];
    eauto using init_identity, from_abinit_ixc_identity, from_name_identity.
Qed.

End IdentityFacts.

(** ** Equality, hashing and the derived accessors *)

Section Claims.
Context {P : LibxcProvider}.
Variable str_hash : string -> Z.

Lemma eq_same_name (a b : XcFunctional.t) (n : string) :
  XcFunctional.name a = Ok n -> XcFunctional.name b = Ok n ->
  XcFunctional.__eq__ a (XcFunctional.OXc b) = Ok true.
Proof.
  intros Ha Hb. unfold XcFunctional.__eq__. rewrite Ha, Hb. simpl.
  now rewrite String.eqb_refl.
Qed.

(** C2. Two three-digit codes, the first resolving to an exchange code
    and the second to a correlation code (which, as exactly one kind
    holds of a code, is not of the exchange kind): the packed string
    with the exchange digits first and the one with the correlation
    digits first are both accepted, yield the same instance, and the two
    compare equal. *)
Theorem packed_orders_agree (xs cs : string) (nx nc : Z) (fx fc : LibxcFuncs) :
  three_digits xs = true -> three_digits cs = true ->
  int xs = Ok nx -> LibxcFuncs_call nx = Ok fx ->
  int cs = Ok nc -> LibxcFuncs_call nc = Ok fc ->
  is_x_kind fx = true -> is_c_kind fc = true -> is_x_kind fc = false ->
  exists a b,
    XcFunctional.from_abinit_ixc ("-" ++ xs ++ cs) = Ok a /\
    XcFunctional.from_abinit_ixc ("-" ++ cs ++ xs) = Ok b /\
    a = b /\
    XcFunctional.__eq__ a (XcFunctional.OXc b) = Ok true.
Proof.
  intros Hxs Hcs Hnx Hfx Hnc Hfc Hx Hc Hcx.
  destruct (packed_shape xs cs Hxs Hcs) as (_ & Hd1 & Hl1 & Hu1 & Hv1).
  destruct (packed_shape cs xs Hcs Hxs) as (_ & Hd2 & Hl2 & Hu2 & Hv2).
  rewrite <- Hu1 in Hnx at 1. rewrite <- Hv1 in Hnc at 1.
  pose proof (from_abinit_ixc_packed _ _ _ _ _ Hd1 Hl1 Hnx Hfx Hnc Hfc) as H1.
  rewrite Hu1 in Hnx. rewrite Hv1 in Hnc.
  rewrite <- Hu2 in Hnc at 1. rewrite <- Hv2 in Hnx at 1.
  pose proof (from_abinit_ixc_packed _ _ _ _ _ Hd2 Hl2 Hnc Hfc Hnx Hfx) as H2.
  rewrite Hx, Hc in H1. rewrite Hcx, Hx, Hc in H2.
  cbn [negb andb assert bind] in H1, H2. rewrite init_pair in H1, H2.
  exists (XcFunctional.mk PNone (PFunc fx) (PFunc fc)),
         (XcFunctional.mk PNone (PFunc fx) (PFunc fc)).
  repeat split; try assumption.
  destruct (identity_name _ (identity_pair fx fc)) as [n Hn].
  exact (eq_same_name _ _ n Hn Hn).
Qed.

(** C4. When the keys of the alias table are pairwise distinct (the
    enumeration gives different members to the names the table uses),
    the identity built from the legacy code "11" and the one built from
    the alias "PBE" compare equal. *)
Theorem ixc_11_equals_PBE :
  NoDup (map fst XcFunctional.aliases_literal) ->
  exists a b,
    XcFunctional.from_abinit_ixc "11" = Ok a /\
    XcFunctional.from_name "PBE" = Ok b /\
    XcFunctional.__eq__ a (XcFunctional.OXc b) = Ok true.
Proof.
  intros Hnd.
  exists (XcFunctional.mk PNone (PFunc GGA_X_PBE) (PFunc GGA_C_PBE)),
         (XcFunctional.mk PNone (PFunc GGA_X_PBE) (PFunc GGA_C_PBE)).
  split; [|split].
  - unfold XcFunctional.from_abinit_ixc.
    change (strip "11") with "11". cbv zeta.
    change (negb (startswith "11" "-")) with true. cbv iota.
    rewrite abinitixc_getitem. reflexivity.
  - unfold XcFunctional.from_name, XcFunctional.aliases.
    rewrite (OrderedDict_distinct _ _ Hnd). reflexivity.
  - destruct (identity_name _ (identity_pair GGA_X_PBE GGA_C_PBE)) as [n Hn].
    exact (eq_same_name _ _ n Hn Hn).
Qed.

(** C5. When neither the combined code nor the pair of exchange and
    correlation codes is a key of the alias table, [type] raises
    [NotImplementedError]; it returns no string, composed or other. *)
Theorem type_unregistered (self : XcFunctional.t) :
  dict_contains XcFunctional.aliases (XcFunctional.xc self) = false ->
  dict_contains XcFunctional.aliases
    (PTuple [XcFunctional.x self; XcFunctional.c self]) = false ->
  XcFunctional.type self = Raise NotImplementedError /\
  (forall s, XcFunctional.type self <> Ok s).
Proof.
  intros Hxc Hpair.
  assert (H : XcFunctional.type self = Raise NotImplementedError).
  { unfold XcFunctional.type. now rewrite Hxc, Hpair. }
  split; [exact H|]. intros s. rewrite H. discriminate.
Qed.

(** C6. For an identity with neither its combined code nor its pair in
    the alias table, [name] returns a string: the name of the combined
    code when there is one, and otherwise the name of the exchange code,
    a plus sign, and the name of the correlation code. *)
Theorem name_unregistered (self : XcFunctional.t) :
  identity self ->
  dict_contains XcFunctional.aliases (XcFunctional.xc self) = false ->
  dict_contains XcFunctional.aliases
    (PTuple [XcFunctional.x self; XcFunctional.c self]) = false ->
  (exists n, XcFunctional.name self = Ok n) /\
  (forall f, XcFunctional.xc self = PFunc f ->
             XcFunctional.name self = Ok (libxc_name f)) /\
  (forall fx fc,
      XcFunctional.xc self = PNone ->
      XcFunctional.x self = PFunc fx -> XcFunctional.c self = PFunc fc ->
      XcFunctional.name self = Ok (libxc_name fx ++ "+" ++ libxc_name fc)).
Proof.
  intros Hid Hxc Hpair. split; [apply identity_name, Hid|].
  destruct Hid as [f | fx fc]; simpl in *; split.
  - intros g Hg. injection Hg as <-. apply name_xc.
  - intros gx gc Hg. discriminate Hg.
  - intros g Hg. discriminate Hg.
  - intros gx gc _ Hgx Hgc. injection Hgx as <-. injection Hgc as <-.
    apply name_pair_unregistered, Hpair.
Qed.

(** C9. On the instances the three constructors return, [__eq__] is
    reflexive, symmetric and transitive; instances that are equal, and
    so any two with the same derived name, have the same hash; and an
    instance is equal to its own name given as a string. *)
Theorem eq_equivalence_and_hash (a b d : XcFunctional.t) :
  built a -> built b -> built d ->
  XcFunctional.__eq__ a (XcFunctional.OXc a) = Ok true /\
  XcFunctional.__eq__ a (XcFunctional.OXc b)
  = XcFunctional.__eq__ b (XcFunctional.OXc a) /\
  (XcFunctional.__eq__ a (XcFunctional.OXc b) = Ok true ->
   XcFunctional.__eq__ b (XcFunctional.OXc d) = Ok true ->
   XcFunctional.__eq__ a (XcFunctional.OXc d) = Ok true) /\
  (XcFunctional.name a = XcFunctional.name b ->
   XcFunctional.__eq__ a (XcFunctional.OXc b) = Ok true /\
   XcFunctional.__hash__ str_hash a = XcFunctional.__hash__ str_hash b) /\
  (XcFunctional.__eq__ a (XcFunctional.OXc b) = Ok true ->
   XcFunctional.__hash__ str_hash a = XcFunctional.__hash__ str_hash b) /\
  (exists h, XcFunctional.__hash__ str_hash a = Ok h) /\
  (exists n, XcFunctional.name a = Ok n /\
             XcFunctional.__eq__ a (XcFunctional.OObj (PStr n)) = Ok true).
Proof.
  intros Ha Hb Hd.
  destruct (identity_name a (built_identity a Ha)) as [na Hna].
  destruct (identity_name b (built_identity b Hb)) as [nb Hnb].
  destruct (identity_name d (built_identity d Hd)) as [nd Hnd].
  unfold XcFunctional.__eq__, XcFunctional.__hash__.
  rewrite Hna, Hnb, Hnd. cbn [bind XcFunctional.str_eq].
  rewrite String.eqb_refl.
  split; [reflexivity|].
  split; [now rewrite String.eqb_sym|].
  split.
  { intros Hab Hbd. injection Hab as Hab. injection Hbd as Hbd.
    apply String.eqb_eq in Hab, Hbd. subst. now rewrite String.eqb_refl. }
  split.
  { intros Hn. injection Hn as ->. now rewrite String.eqb_refl. }
  split.
  { intros Hab. injection Hab as Hab. apply String.eqb_eq in Hab.
    now subst. }
  split; [eexists; reflexivity|].
  exists na. split; [reflexivity | now rewrite String.eqb_refl].
Qed.

(** C10. Compared with [None], any instance is unequal: [__eq__]
    returns [False] and [__ne__] returns [True], whatever the three
    attributes hold, before the name is looked at. *)
Theorem eq_None (self : XcFunctional.t) :
  XcFunctional.__eq__ self (XcFunctional.OObj PNone) = Ok false /\
  XcFunctional.__ne__ self (XcFunctional.OObj PNone) = Ok true.
Proof. split; reflexivity. Qed.

End Claims.

(** ** Further properties of the alias table and of [from_name] *)

Section NameFacts.
Context {P : LibxcProvider}.

Lemma dict_contains_get (V : Type) (d : dict V) (k : pyobj) :
  dict_contains d k = false <-> dict_get d k = None.
Proof.
  unfold dict_contains. destruct (dict_get d k); split; congruence.
Qed.

Lemma aliases_literal_type (k : pyobj) (r : type_name.t) :
  In (k, r) XcFunctional.aliases_literal ->
  type_name.type r = "LDA" \/ type_name.type r = "GGA".
Proof.
  unfold XcFunctional.aliases_literal. simpl. intros H.
  repeat (destruct H as [H | H]; [injection H as _ <-; simpl; auto|]).
  contradiction.
Qed.

Lemma aliases_pairs_only (k : pyobj) (r : type_name.t) :
  In (k, r) XcFunctional.aliases ->
  exists fx fc, k = PTuple [PFunc fx; PFunc fc].
Proof. intros H. eapply aliases_literal_key, aliases_In_literal, H. Qed.

Lemma from_name_loop_Ok (items : list (pyobj * type_name.t))
      (n : string) (a : XcFunctional.t) :
  (forall k r, In (k, r) items -> exists fx fc, k = PTuple [PFunc fx; PFunc fc]) ->
  XcFunctional.from_name_loop items n = Ok a ->
  exists fx fc r,
    In (PTuple [PFunc fx; PFunc fc], r) items /\
    type_name.name r = n /\
    a = XcFunctional.mk PNone (PFunc fx) (PFunc fc).
Proof.
  induction items as [|[k r] items IH]; simpl; intros Hkeys H;
    [discriminate|].
  destruct (String.eqb (type_name.name r) n) eqn:E.
  - destruct (Hkeys k r (or_introl eq_refl)) as (fx & fc & ->).
    simpl in H. rewrite init_pair in H. injection H as <-.
    apply String.eqb_eq in E. exists fx, fc, r. auto.
  - destruct IH as (fx & fc & r' & Hin & Hn & Ha); [|exact H|].
    + intros k' r' Hin. apply (Hkeys k' r'). now right.
    + exists fx, fc, r'. auto.
Qed.

Lemma from_name_loop_missing (items : list (pyobj * type_name.t)) (n : string) :
  ~ In n (map (fun kv => type_name.name (snd kv)) items) ->
  XcFunctional.from_name_loop items n
  = Raise (ValueError ("Cannot find name=" ++ n ++ " in aliases")).
Proof.
  induction items as [|[k r] items IH]; simpl; intros Hn; [reflexivity|].
  destruct (String.eqb (type_name.name r) n) eqn:E.
  - apply String.eqb_eq in E. elim Hn. now left.
  - apply IH. intros Hin. apply Hn. now right.
Qed.

Lemma from_name_loop_present (items : list (pyobj * type_name.t)) (n : string) :
  (forall k r, In (k, r) items -> exists fx fc, k = PTuple [PFunc fx; PFunc fc]) ->
  In n (map (fun kv => type_name.name (snd kv)) items) ->
  exists a, XcFunctional.from_name_loop items n = Ok a.
Proof.
  induction items as [|[k r] items IH]; simpl; intros Hkeys Hn;
    [contradiction|].
  destruct (String.eqb (type_name.name r) n) eqn:E.
  - destruct (Hkeys k r (or_introl eq_refl)) as (fx & fc & ->).
    simpl. rewrite init_pair. eauto.
  - destruct Hn as [Hn | Hn].
    + subst n. rewrite String.eqb_refl in E. discriminate.
    + apply IH; [|exact Hn]. intros k' r' Hin. apply (Hkeys k' r'). now right.
Qed.

(** [from_name] accepts exactly the names [known_names] lists, and its
    only failure is the [ValueError] raised after the loop: with this
    table neither the single-code branch nor the "Wrong key" branch is
    ever taken. *)
Theorem from_name_iff_known (n : string) :
  ((exists a, XcFunctional.from_name n = Ok a)
   <-> In n XcFunctional.known_names) /\
  (XcFunctional.from_name n
   = Raise (ValueError ("Cannot find name=" ++ n ++ " in aliases"))
   <-> ~ In n XcFunctional.known_names) /\
  (forall e, XcFunctional.from_name n = Raise e ->
             e = ValueError ("Cannot find name=" ++ n ++ " in aliases")).
Proof.
  unfold XcFunctional.from_name, XcFunctional.known_names.
  assert (Hpresent :
            In n (map (fun kv => type_name.name (snd kv)) XcFunctional.aliases) ->
            exists a, XcFunctional.from_name_loop XcFunctional.aliases n = Ok a)
    by (apply from_name_loop_present, aliases_pairs_only).
  split; [|split].
  - split; [|exact Hpresent].
    intros [a Ha].
    destruct (from_name_loop_Ok _ _ _ aliases_pairs_only Ha)
      as (fx & fc & r & Hin & Hn & _).
    subst n.
    apply (in_map (fun kv => type_name.name (snd kv))) in Hin. exact Hin.
  - split; [|apply from_name_loop_missing].
    intros Hr Hin. destruct (Hpresent Hin) as [a Ha]. congruence.
  - intros e He.
    destruct (in_dec string_dec n
                (map (fun kv => type_name.name (snd kv)) XcFunctional.aliases))
      as [Hin | Hout].
    + destruct (Hpresent Hin) as [a Ha]. congruence.
    + rewrite (from_name_loop_missing _ _ Hout) in He. congruence.
Qed.

(** What [from_name] returns is a pair identity that reads back the name
    it was asked for: [name] and [__repr__] give that name, [type] gives
    LDA or GGA, and [type_name] joins the two. *)
Theorem from_name_reads_back (n : string) (a : XcFunctional.t) :
  XcFunctional.from_name n = Ok a ->
  XcFunctional.xc a = PNone /\
  XcFunctional.name a = Ok n /\
  XcFunctional.__repr__ a = Ok n /\
  exists ty,
    (ty = "LDA" \/ ty = "GGA") /\
    XcFunctional.type a = Ok ty /\
    XcFunctional.type_name a = Ok (ty ++ "-" ++ n).
Proof.
  intros Ha.
  destruct (from_name_loop_Ok _ _ _ aliases_pairs_only Ha)
    as (fx & fc & r & Hin & Hn & ->).
  subst n.
  pose proof (name_alias _ _ _ Hin) as Hname.
  pose proof (type_alias _ _ _ Hin) as Htype.
  split; [reflexivity|]. split; [exact Hname|]. split; [exact Hname|].
  exists (type_name.type r). split; [|split].
  - eapply aliases_literal_type, aliases_In_literal, Hin.
  - exact Htype.
  - unfold XcFunctional.type_name. now rewrite Htype, Hname.
Qed.

(** The other way round: an exchange and correlation pair that is a key
    of the alias table has a name from which [from_name] rebuilds the
    same instance. *)
Theorem name_then_from_name (fx fc : LibxcFuncs) :
  dict_contains XcFunctional.aliases (PTuple [PFunc fx; PFunc fc]) = true ->
  exists n,
    XcFunctional.name (XcFunctional.mk PNone (PFunc fx) (PFunc fc)) = Ok n /\
    XcFunctional.from_name n
    = Ok (XcFunctional.mk PNone (PFunc fx) (PFunc fc)).
Proof.
  intros H. destruct (name_pair_registered fx fc H) as (r & Hin & Hn).
  exists (type_name.name r). split; [exact Hn|].
  apply from_name_alias, Hin.
Qed.

Lemma dict_setitem_names (d : dict type_name.t) (k : pyobj)
      (v : type_name.t) (n : string) :
  In n (map (fun kv => type_name.name (snd kv)) (dict_setitem d k v)) ->
  n = type_name.name v \/ In n (map (fun kv => type_name.name (snd kv)) d).
Proof.
  intros H. apply in_map_iff in H. destruct H as [[k' r'] [Hn Hin]].
  apply dict_setitem_In in Hin. destruct Hin as [Heq | Hin].
  - injection Heq as -> ->. left. now rewrite <- Hn.
  - right. apply in_map_iff. exists (k', r'). auto.
Qed.

(** Inserting an entry whose name is new keeps the names distinct,
    whether the key was present or not. *)
Lemma dict_setitem_names_NoDup (d : dict type_name.t) (k : pyobj)
      (v : type_name.t) (tail : list string) :
  NoDup (map (fun kv => type_name.name (snd kv)) d
           ++ type_name.name v :: tail)%list ->
  NoDup (map (fun kv => type_name.name (snd kv)) (dict_setitem d k v)
           ++ tail)%list.
Proof.
  induction d as [|[k' v'] d IH]; simpl; intros H; [exact H|].
  inversion H as [|? ? Hhead Hrest]; subst.
  destruct (pyobj_eqb k' k); simpl.
  - constructor.
    + apply NoDup_remove_2 in Hrest. exact Hrest.
    + apply NoDup_remove_1 in Hrest. exact Hrest.
  - constructor; [|apply IH, Hrest].
    intros Hin. apply Hhead. apply in_app_or in Hin.
    apply in_or_app. destruct Hin as [Hin | Hin].
    + apply dict_setitem_names in Hin. destruct Hin as [-> | Hin].
      * right. now left.
      * now left.
    + right. now right.
Qed.

Lemma OrderedDict_names_NoDup (pairs : list (pyobj * type_name.t)) :
  NoDup (map (fun kv => type_name.name (snd kv)) pairs) ->
  NoDup (map (fun kv => type_name.name (snd kv)) (OrderedDict pairs)).
Proof.
  unfold OrderedDict.
  enough (H : forall d0,
             NoDup (map (fun kv => type_name.name (snd kv)) d0
                      ++ map (fun kv => type_name.name (snd kv)) pairs)%list ->
             NoDup (map (fun kv => type_name.name (snd kv))
                        (fold_left
                           (fun d kv => dict_setitem d (fst kv) (snd kv))
                           pairs d0)))
    by (intros Hnd; apply (H []); exact Hnd).
  induction pairs as [|[k v] pairs IH]; simpl; intros d0 H.
  - now rewrite app_nil_r in H.
  - apply IH. apply dict_setitem_names_NoDup. exact H.
Qed.

(** [known_names] lists no name twice, and only names of the table. *)
Theorem known_names_NoDup :
  NoDup XcFunctional.known_names /\
  incl XcFunctional.known_names
       ["PW"; "PW91"; "PBE"; "RPBE"; "revPBE"; "PBEsol"; "AM05"; "BLYP"].
Proof.
  unfold XcFunctional.known_names, XcFunctional.aliases. split.
  - apply OrderedDict_names_NoDup.
    unfold XcFunctional.aliases_literal. simpl.
    repeat (constructor; [simpl; intuition discriminate|]). constructor.
  - intros n Hn. apply in_map_iff in Hn. destruct Hn as [[k r] [Hn Hin]].
    apply OrderedDict_In in Hin.
    apply (in_map (fun kv => type_name.name (snd kv))) in Hin.
    subst n. exact Hin.
Qed.

(** When the enumeration gives distinct keys to the eight entries,
    [known_names] is the eight names in the order of the table. *)
Theorem known_names_in_order :
  NoDup (map fst XcFunctional.aliases_literal) ->
  XcFunctional.known_names
  = ["PW"; "PW91"; "PBE"; "RPBE"; "revPBE"; "PBEsol"; "AM05"; "BLYP"].
Proof.
  intros Hnd. unfold XcFunctional.known_names, XcFunctional.aliases.
  rewrite (OrderedDict_distinct _ _ Hnd). reflexivity.
Qed.

End NameFacts.

(** ** Further properties of [from_abinit_ixc] *)

Lemma lstrip_clean (s : string) :
  match lstrip s with
  | EmptyString => True
  | String ch _ => isspace ch = false
  end.
Proof.
  induction s as [|ch s IH]; simpl; [exact I|].
  destruct (isspace ch) eqn:E; [exact IH | exact E].
Qed.

Lemma rstrip_head (ch : ascii) (s : string) :
  isspace ch = false -> exists r, rstrip (String ch s) = String ch r.
Proof.
  intros E. simpl. destruct (rstrip s); [rewrite E|]; eauto.
Qed.

Lemma rstrip_idempotent (s : string) : rstrip (rstrip s) = rstrip s.
Proof.
  induction s as [|ch s IH]; simpl; [reflexivity|].
  destruct (rstrip s) as [|d r] eqn:Er.
  - destruct (isspace ch) eqn:E; simpl; [reflexivity | now rewrite E].
  - change (rstrip (String ch (String d r)))
      with (match rstrip (String d r) with
            | EmptyString =>
                if isspace ch then EmptyString else String ch EmptyString
            | r' => String ch r'
            end).
    now rewrite IH.
Qed.

(** Trimming twice is trimming once. *)
Lemma strip_idempotent (s : string) : strip (strip s) = strip s.
Proof.
  unfold strip. pose proof (lstrip_clean s) as Hc.
  destruct (lstrip s) as [|ch t] eqn:El; [reflexivity|].
  destruct (rstrip_head ch t Hc) as [r Hr]. rewrite Hr.
  cbn [lstrip]. rewrite Hc. rewrite <- Hr. apply rstrip_idempotent.
Qed.

Lemma int_Raise (s : string) (e : exn) :
  int s = Raise e -> e = invalid_literal s.
Proof.
  unfold int. cbv zeta.
  match goal with
  | |- match ?r with _ => _ end = _ -> _ => destruct r
  end; congruence.
Qed.

Lemma assert_Ok (b : bool) (cond : string) (u : unit) :
  assert b cond = Ok u -> b = true.
Proof. destruct b; simpl; congruence. Qed.

Section IxcFacts.
Context {P : LibxcProvider}.

Ltac bind_inv H :=
  match type of H with
  | bind ?m _ = Ok _ =>
      let E := fresh "E" in
      destruct m eqn:E; cbn [bind] in H; [|discriminate H]
  end.

Lemma LibxcFuncs_call_Raise (n : Z) (e : exn) :
  LibxcFuncs_call n = Raise e -> e = ValueError "not a valid LibxcFuncs".
Proof.
  unfold LibxcFuncs_call. destruct (LibxcFuncs_of_value n); congruence.
Qed.

(** [from_abinit_ixc] does not see whitespace around its argument. *)
Theorem from_abinit_ixc_strip (ixc_string : string) :
  XcFunctional.from_abinit_ixc (strip ixc_string)
  = XcFunctional.from_abinit_ixc ixc_string.
Proof.
  unfold XcFunctional.from_abinit_ixc. now rewrite strip_idempotent.
Qed.

(** A string that, once trimmed, does not start with a hyphen is looked
    up in the translation table: "11" gives the PBE pair, anything else,
    the empty string included, raises [KeyError]. *)
Theorem from_abinit_ixc_table (ixc_string : string) :
  startswith (strip ixc_string) "-" = false ->
  XcFunctional.from_abinit_ixc ixc_string
  = if String.eqb (strip ixc_string) "11"
    then Ok (XcFunctional.mk PNone (PFunc GGA_X_PBE) (PFunc GGA_C_PBE))
    else Raise KeyError.
Proof.
  intros H. unfold XcFunctional.from_abinit_ixc. cbv zeta.
  rewrite H. cbn [negb]. rewrite abinitixc_getitem.
  rewrite (String.eqb_sym (strip ixc_string) "11").
  destruct (String.eqb "11" (strip ixc_string)); [|reflexivity].
  cbn [bind]. apply cls_kwargs_PBE.
Qed.

(** A packed string is accepted only when it has six characters after
    the hyphen and both halves read as integers that the enumeration
    resolves; the instance returned then holds an exchange-kind code in
    [x] and a correlation-kind code in [c], the two resolved codes in
    the order read when the first is of exchange kind and swapped
    otherwise. *)
Theorem from_abinit_ixc_packed_Ok (ixc_string : string) (a : XcFunctional.t) :
  startswith (strip ixc_string) "-" = true ->
  XcFunctional.from_abinit_ixc ixc_string = Ok a ->
  length (slice_from 1 (strip ixc_string)) = 6 /\
  exists n1 n2 f1 f2 fx fc,
    int (slice 1 4 (strip ixc_string)) = Ok n1 /\
    LibxcFuncs_call n1 = Ok f1 /\
    int (slice_from 4 (strip ixc_string)) = Ok n2 /\
    LibxcFuncs_call n2 = Ok f2 /\
    (fx, fc) = (if is_x_kind f1 then (f1, f2) else (f2, f1)) /\
    is_x_kind fx = true /\ is_c_kind fc = true /\
    a = XcFunctional.mk PNone (PFunc fx) (PFunc fc).
Proof.
  intros Hd H. unfold XcFunctional.from_abinit_ixc in H. cbv zeta in H.
  rewrite Hd in H. cbn [negb] in H.
  bind_inv H. apply assert_Ok, Nat.eqb_eq in E. split; [exact E|].
  bind_inv H. rename a1 into n1.
  bind_inv H. rename a1 into f1.
  bind_inv H. rename a1 into n2.
  bind_inv H. rename a1 into f2.
  exists n1, n2, f1, f2.
  destruct (is_x_kind f1) eqn:Ex; cbn [negb] in H; bind_inv H;
    apply assert_Ok, andb_prop in E4; destruct E4 as [Hx Hc];
    rewrite init_pair in H; injection H as <-.
  - exists f1, f2. auto 10.
  - exists f2, f1. auto 10.
Qed.

(** The exceptions [from_abinit_ixc] can raise: [KeyError] from the
    table, and in the packed form the two assertions, the [ValueError]
    of [int] on one of the halves, and the [ValueError] of the
    enumeration on a number it does not know.  The constructor itself
    never fails there. *)
Theorem from_abinit_ixc_Raise (ixc_string : string) (e : exn) :
  XcFunctional.from_abinit_ixc ixc_string = Raise e ->
  (startswith (strip ixc_string) "-" = false /\ e = KeyError) \/
  (startswith (strip ixc_string) "-" = true /\
   (e = AssertionError "len(ixc[1:]) == 6" \/
    e = invalid_literal (slice 1 4 (strip ixc_string)) \/
    e = invalid_literal (slice_from 4 (strip ixc_string)) \/
    e = ValueError "not a valid LibxcFuncs" \/
    e = AssertionError "x.is_x_kind and c.is_c_kind")).
Proof.
  intros H.
  destruct (startswith (strip ixc_string) "-") eqn:Hd.
  - right. split; [reflexivity|].
    unfold XcFunctional.from_abinit_ixc in H. cbv zeta in H.
    rewrite Hd in H. cbn [negb] in H.
    destruct (length (slice_from 1 (strip ixc_string)) =? 6)%nat;
      cbn [assert bind] in H; [|injection H as <-; auto].
    destruct (int (slice 1 4 (strip ixc_string))) as [n1|e1] eqn:E1;
      cbn [bind] in H;
      [|injection H as <-; apply int_Raise in E1; auto].
    destruct (LibxcFuncs_call n1) as [f1|e1] eqn:E2; cbn [bind] in H;
      [|injection H as <-; apply LibxcFuncs_call_Raise in E2; auto 6].
    destruct (int (slice_from 4 (strip ixc_string))) as [n2|e2] eqn:E3;
      cbn [bind] in H;
      [|injection H as <-; apply int_Raise in E3; auto 6].
    destruct (LibxcFuncs_call n2) as [f2|e2] eqn:E4; cbn [bind] in H;
      [|injection H as <-; apply LibxcFuncs_call_Raise in E4; auto 6].
    destruct (negb (is_x_kind f1));
      match type of H with
      | context [assert ?b _] => destruct b
      end; cbn [assert bind] in H;
      try (rewrite init_pair in H; discriminate H);
      injection H as <-; auto 8.
  - left. split; [reflexivity|].
    rewrite (from_abinit_ixc_table _ Hd) in H.
    destruct (String.eqb (strip ixc_string) "11"); congruence.
Qed.

(** Both halves are resolved before the kinds are looked at: a first
    half that reads as a number the enumeration does not know ends the
    call with the enumeration's [ValueError]. *)
Lemma from_abinit_ixc_unresolved (ixc_string : string) (n1 : Z) :
  startswith (strip ixc_string) "-" = true ->
  length (slice_from 1 (strip ixc_string)) = 6 ->
  int (slice 1 4 (strip ixc_string)) = Ok n1 ->
  LibxcFuncs_of_value n1 = None ->
  XcFunctional.from_abinit_ixc ixc_string
  = Raise (ValueError "not a valid LibxcFuncs").
Proof.
  intros Hd Hlen Hn1 Hf1.
  unfold XcFunctional.from_abinit_ixc. cbv zeta.
  rewrite Hd, Hlen, Hn1. cbn [negb Nat.eqb assert bind].
  unfold LibxcFuncs_call. rewrite Hf1. reflexivity.
Qed.

End IxcFacts.

(** ** Further properties of the accessors and of equality *)

Section AccessorFacts.
Context {P : LibxcProvider}.

(** Whatever the instance, a type that [type] returns is one of the two
    the table holds. *)
Theorem type_LDA_or_GGA (self : XcFunctional.t) (ty : string) :
  XcFunctional.type self = Ok ty -> ty = "LDA" \/ ty = "GGA".
Proof.
  unfold XcFunctional.type, dict_contains, dict_getitem.
  destruct (dict_get XcFunctional.aliases (XcFunctional.xc self))
    as [r|] eqn:E1.
  - cbn [bind]. intros H. injection H as <-.
    eapply aliases_literal_type, aliases_In_literal, dict_get_Some_In, E1.
  - destruct (dict_get XcFunctional.aliases
                (PTuple [XcFunctional.x self; XcFunctional.c self]))
      as [r|] eqn:E2; [|discriminate].
    cbn [bind]. intros H. injection H as <-.
    eapply aliases_literal_type, aliases_In_literal, dict_get_Some_In, E2.
Qed.

(** An instance built from a single combined code has a name, the name
    of that code, but no type: [type] and [type_name] raise
    [NotImplementedError] whatever the code. *)
Theorem combined_code_has_no_type (f : LibxcFuncs) :
  exists a,
    XcFunctional.__init__ (PFunc f) PNone PNone = Ok a /\
    XcFunctional.name a = Ok (libxc_name f) /\
    XcFunctional.type a = Raise NotImplementedError /\
    XcFunctional.type_name a = Raise NotImplementedError.
Proof.
  exists (XcFunctional.mk (PFunc f) PNone PNone).
  assert (Ht : XcFunctional.type (XcFunctional.mk (PFunc f) PNone PNone)
               = Raise NotImplementedError).
  { unfold XcFunctional.type. simpl.
    now rewrite aliases_no_func, aliases_no_pair_with_None. }
  split; [reflexivity|]. split; [apply name_xc|]. split; [exact Ht|].
  unfold XcFunctional.type_name. now rewrite Ht.
Qed.

(** For an identity, [type_name] is decided by the alias table alone:
    the entry of the pair of codes gives type, hyphen, name, and without
    an entry the result is [NotImplementedError], although [name] is
    defined. *)
Theorem type_name_by_table (a : XcFunctional.t) :
  identity a ->
  XcFunctional.type_name a
  = match dict_get XcFunctional.aliases
            (PTuple [XcFunctional.x a; XcFunctional.c a]) with
    | Some r => Ok (type_name.type r ++ "-" ++ type_name.name r)
    | None => Raise NotImplementedError
    end.
Proof.
  intros [f | fx fc]; simpl.
  - rewrite (proj1 (dict_contains_get _ _ _) (aliases_no_pair_with_None PNone)).
    unfold XcFunctional.type_name, XcFunctional.type. simpl.
    now rewrite aliases_no_func, aliases_no_pair_with_None.
  - destruct (dict_get XcFunctional.aliases (PTuple [PFunc fx; PFunc fc]))
      as [r|] eqn:E.
    + apply dict_get_Some_In in E. unfold XcFunctional.type_name.
      now rewrite (type_alias _ _ _ E), (name_alias _ _ _ E).
    + apply dict_contains_get in E.
      unfold XcFunctional.type_name, XcFunctional.type. simpl.
      now rewrite aliases_no_None, E.
Qed.

(** Two identities are equal exactly when their names are, and unequal
    exactly when they differ: [__ne__] is the negation of [__eq__], and
    neither raises. *)
Theorem eq_iff_same_name (a b : XcFunctional.t) :
  identity a -> identity b ->
  (XcFunctional.__eq__ a (XcFunctional.OXc b) = Ok true
   <-> XcFunctional.name a = XcFunctional.name b) /\
  (XcFunctional.__ne__ a (XcFunctional.OXc b) = Ok true
   <-> XcFunctional.name a <> XcFunctional.name b) /\
  (exists r, XcFunctional.__eq__ a (XcFunctional.OXc b) = Ok r /\
             XcFunctional.__ne__ a (XcFunctional.OXc b) = Ok (negb r)).
Proof.
  intros Ha Hb.
  destruct (identity_name a Ha) as [na Hna].
  destruct (identity_name b Hb) as [nb Hnb].
  unfold XcFunctional.__ne__, XcFunctional.__eq__.
  rewrite Hna, Hnb. cbn [bind].
  destruct (String.eqb na nb) eqn:E.
  - apply String.eqb_eq in E. subst nb. simpl.
    repeat split; try congruence; eauto.
  - apply String.eqb_neq in E. simpl.
    repeat split; try congruence; eauto.
Qed.

(** Against a plain value: an identity equals a string exactly when the
    string is its name, and it equals neither a code of the enumeration
    nor a tuple. *)
Theorem eq_plain_value (a : XcFunctional.t) :
  identity a ->
  (forall s, XcFunctional.__eq__ a (XcFunctional.OObj (PStr s)) = Ok true
             <-> XcFunctional.name a = Ok s) /\
  (forall f, XcFunctional.__eq__ a (XcFunctional.OObj (PFunc f)) = Ok false) /\
  (forall l, XcFunctional.__eq__ a (XcFunctional.OObj (PTuple l)) = Ok false).
Proof.
  intros Ha. destruct (identity_name a Ha) as [na Hna].
  unfold XcFunctional.__eq__. rewrite Hna. cbn [bind XcFunctional.str_eq].
  split; [|split; reflexivity].
  intros s. split; intros H.
  - injection H as H. apply String.eqb_eq in H. congruence.
  - injection H as ->. now rewrite String.eqb_refl.
Qed.

End AccessorFacts.

(** ** The properties on the libxc codes *)

#[local] Existing Instance Libxc.provider.

Lemma libxc_aliases_distinct :
  NoDup (map fst (XcFunctional.aliases_literal (P := Libxc.provider))).
Proof.
  repeat (constructor; [vm_compute; intuition discriminate|]).
  constructor.
Defined.

Lemma from_name_type_name_witness :
  In (PTuple [PFunc Libxc.GGA_X_PBE; PFunc Libxc.GGA_C_PBE],
      type_name.mk "GGA" "PBE")
     (XcFunctional.aliases (P := Libxc.provider)) /\
  exists a,
    XcFunctional.from_name (P := Libxc.provider) "PBE" = Ok a /\
    XcFunctional.type_name a = Ok "GGA-PBE".
Proof.
  assert (H : In (PTuple [PFunc Libxc.GGA_X_PBE; PFunc Libxc.GGA_C_PBE],
                  type_name.mk "GGA" "PBE")
                 (XcFunctional.aliases (P := Libxc.provider)))
    by (vm_compute; tauto).
  split; [exact H|].
  exact (from_name_type_name (P := Libxc.provider) _ _ H).
Defined.

Lemma packed_orders_agree_witness :
  exists a b,
    XcFunctional.from_abinit_ixc (P := Libxc.provider) "-101130" = Ok a /\
    XcFunctional.from_abinit_ixc (P := Libxc.provider) "-130101" = Ok b /\
    a = b /\
    XcFunctional.__eq__ a (XcFunctional.OXc b) = Ok true.
Proof.
  apply (packed_orders_agree (P := Libxc.provider) "101" "130" 101 130
           Libxc.GGA_X_PBE Libxc.GGA_C_PBE); reflexivity.
Defined.

Lemma ixc_11_equals_PBE_witness :
  exists a b,
    XcFunctional.from_abinit_ixc (P := Libxc.provider) "11" = Ok a /\
    XcFunctional.from_name (P := Libxc.provider) "PBE" = Ok b /\
    XcFunctional.__eq__ a (XcFunctional.OXc b) = Ok true.
Proof.
  exact (ixc_11_equals_PBE (P := Libxc.provider) libxc_aliases_distinct).
Defined.

Lemma type_unregistered_witness :
  let self := XcFunctional.mk (P := Libxc.provider)
                PNone (PFunc Libxc.LDA_X) (PFunc Libxc.GGA_C_PBE) in
  XcFunctional.type self = Raise NotImplementedError /\
  (forall s, XcFunctional.type self <> Ok s).
Proof.
  apply (type_unregistered (P := Libxc.provider)); reflexivity.
Defined.

Lemma name_unregistered_witness :
  let self := XcFunctional.mk (P := Libxc.provider)
                PNone (PFunc Libxc.LDA_X) (PFunc Libxc.GGA_C_PBE) in
  identity self /\ XcFunctional.name self = Ok "LDA_X+GGA_C_PBE".
Proof.
  cbv zeta. split; [constructor|].
  refine (proj2 (proj2 (name_unregistered (P := Libxc.provider) _ _ _ _))
            Libxc.LDA_X Libxc.GGA_C_PBE _ _ _);
    try reflexivity; constructor.
Defined.

Lemma packed_length_asserted_witness :
  XcFunctional.from_abinit_ixc (P := Libxc.provider) "-12345"
  = Raise (AssertionError "len(ixc[1:]) == 6").
Proof.
  apply (packed_length_asserted (P := Libxc.provider) "-12345" "12345");
    [reflexivity | discriminate].
Defined.

Lemma packed_kinds_asserted_witness :
  XcFunctional.from_abinit_ixc (P := Libxc.provider) "-101106"
  = Raise (AssertionError "x.is_x_kind and c.is_c_kind").
Proof.
  apply (packed_kinds_asserted (P := Libxc.provider) "-101106" 101 106
           Libxc.GGA_X_PBE Libxc.GGA_X_B88);
    try reflexivity.
  vm_compute. intuition discriminate.
Defined.

Lemma eq_equivalence_and_hash_witness :
  let h := fun s : string => Z.of_nat (length s) in
  let a := XcFunctional.mk (P := Libxc.provider)
             PNone (PFunc Libxc.GGA_X_PBE) (PFunc Libxc.GGA_C_PBE) in
  XcFunctional.from_name "PBE" = Ok a /\
  XcFunctional.from_abinit_ixc "-130101" = Ok a /\
  XcFunctional.__eq__ a (XcFunctional.OXc a) = Ok true /\
  XcFunctional.__hash__ h a = Ok 3%Z /\
  XcFunctional.__eq__ a (XcFunctional.OObj (PStr "PBE")) = Ok true.
Proof.
  cbv zeta. split; [reflexivity|]. split; [reflexivity|].
  pose proof (eq_equivalence_and_hash (P := Libxc.provider)
                (fun s : string => Z.of_nat (length s)) _ _ _
                (built_from_name "PBE" _ eq_refl)
                (built_from_abinit_ixc "-130101" _ eq_refl)
                (built_init None (Some Libxc.GGA_X_PBE) (Some Libxc.GGA_C_PBE)
                            _ eq_refl)) as H.
  split; [exact (proj1 H)|]. split; reflexivity.
Defined.

Lemma from_name_reads_back_witness :
  exists a,
    XcFunctional.from_name "BLYP" = Ok a /\
    XcFunctional.name a = Ok "BLYP" /\
    XcFunctional.type_name a = Ok "GGA-BLYP".
Proof.
  pose proof (from_name_reads_back (P := Libxc.provider) "BLYP" _ eq_refl)
    as (_ & Hname & _).
  eexists. split; [reflexivity|]. split; [exact Hname | reflexivity].
Defined.

Lemma name_then_from_name_witness :
  exists n,
    XcFunctional.name
      (XcFunctional.mk PNone (PFunc Libxc.GGA_X_B88) (PFunc Libxc.GGA_C_LYP))
    = Ok n /\
    XcFunctional.from_name n
    = Ok (XcFunctional.mk PNone (PFunc Libxc.GGA_X_B88) (PFunc Libxc.GGA_C_LYP)).
Proof.
  apply (name_then_from_name (P := Libxc.provider)
           Libxc.GGA_X_B88 Libxc.GGA_C_LYP).
  reflexivity.
Defined.

Lemma known_names_in_order_witness :
  XcFunctional.known_names (P := Libxc.provider)
  = ["PW"; "PW91"; "PBE"; "RPBE"; "revPBE"; "PBEsol"; "AM05"; "BLYP"].
Proof.
  exact (known_names_in_order (P := Libxc.provider) libxc_aliases_distinct).
Defined.

Lemma from_abinit_ixc_table_witness :
  XcFunctional.from_abinit_ixc (P := Libxc.provider) "" = Raise KeyError /\
  XcFunctional.from_abinit_ixc (P := Libxc.provider) " 11 "
  = Ok (XcFunctional.mk PNone (PFunc Libxc.GGA_X_PBE) (PFunc Libxc.GGA_C_PBE)).
Proof.
  split.
  - exact (from_abinit_ixc_table (P := Libxc.provider) "" eq_refl).
  - exact (from_abinit_ixc_table (P := Libxc.provider) " 11 " eq_refl).
Defined.

Lemma from_abinit_ixc_packed_Ok_witness :
  startswith (strip "-130101") "-" = true /\
  XcFunctional.from_abinit_ixc (P := Libxc.provider) "-130101"
  = Ok (XcFunctional.mk PNone (PFunc Libxc.GGA_X_PBE) (PFunc Libxc.GGA_C_PBE)) /\
  length (slice_from 1 (strip "-130101")) = 6.
Proof.
  split; [reflexivity|]. split; [reflexivity|].
  exact (proj1 (from_abinit_ixc_packed_Ok (P := Libxc.provider)
                  "-130101" _ eq_refl eq_refl)).
Defined.

Lemma from_abinit_ixc_Raise_witness :
  XcFunctional.from_abinit_ixc (P := Libxc.provider) "-12a130"
  = Raise (invalid_literal "12a") /\
  ((startswith (strip "-12a130") "-" = false /\
    invalid_literal "12a" = KeyError) \/
   (startswith (strip "-12a130") "-" = true /\
    (invalid_literal "12a" = AssertionError "len(ixc[1:]) == 6" \/
     invalid_literal "12a" = invalid_literal (slice 1 4 (strip "-12a130")) \/
     invalid_literal "12a" = invalid_literal (slice_from 4 (strip "-12a130")) \/
     invalid_literal "12a" = ValueError "not a valid LibxcFuncs" \/
     invalid_literal "12a" = AssertionError "x.is_x_kind and c.is_c_kind"))).
Proof.
  split; [reflexivity|].
  exact (from_abinit_ixc_Raise (P := Libxc.provider) "-12a130" _ eq_refl).
Defined.

Lemma type_LDA_or_GGA_witness :
  XcFunctional.type
    (XcFunctional.mk PNone (PFunc Libxc.LDA_X) (PFunc Libxc.LDA_C_PW))
  = Ok "LDA" /\
  ("LDA" = "LDA" \/ "LDA" = "GGA").
Proof.
  split; [reflexivity|].
  exact (type_LDA_or_GGA (P := Libxc.provider)
           (XcFunctional.mk PNone (PFunc LDA_X) (PFunc LDA_C_PW))
           "LDA" eq_refl).
Defined.

Lemma type_name_by_table_witness :
  let a := XcFunctional.mk PNone (PFunc Libxc.LDA_X) (PFunc Libxc.GGA_C_PBE) in
  identity a /\
  XcFunctional.name a = Ok "LDA_X+GGA_C_PBE" /\
  XcFunctional.type_name a = Raise NotImplementedError.
Proof.
  cbv zeta. split; [constructor|]. split; [reflexivity|].
  exact (type_name_by_table (P := Libxc.provider) _
           (identity_pair Libxc.LDA_X Libxc.GGA_C_PBE)).
Defined.

Lemma eq_iff_same_name_witness :
  let a := XcFunctional.mk PNone (PFunc Libxc.GGA_X_PBE) (PFunc Libxc.GGA_C_PBE) in
  let b := XcFunctional.mk (PFunc Libxc.GGA_X_PBE) PNone PNone in
  identity a /\ identity b /\
  exists r, XcFunctional.__eq__ a (XcFunctional.OXc b) = Ok r /\
            XcFunctional.__ne__ a (XcFunctional.OXc b) = Ok (negb r).
Proof.
  cbv zeta. split; [constructor|]. split; [constructor|].
  exact (proj2 (proj2 (eq_iff_same_name (P := Libxc.provider) _ _
                         (identity_pair Libxc.GGA_X_PBE Libxc.GGA_C_PBE)
                         (identity_xc Libxc.GGA_X_PBE)))).
Defined.

Lemma eq_plain_value_witness :
  let a := XcFunctional.mk PNone (PFunc Libxc.GGA_X_PBE) (PFunc Libxc.GGA_C_PBE) in
  identity a /\
  XcFunctional.__eq__ a (XcFunctional.OObj (PStr "PBE")) = Ok true /\
  XcFunctional.__eq__ a (XcFunctional.OObj (PFunc Libxc.GGA_X_PBE)) = Ok false.
Proof.
  cbv zeta. split; [constructor|].
  pose proof (eq_plain_value (P := Libxc.provider) _
                (identity_pair Libxc.GGA_X_PBE Libxc.GGA_C_PBE))
    as (Hs & Hf & _).
  split; [apply Hs; reflexivity | apply Hf].
Defined.

(** The string "-999999" has the right length, but 999 is no code of
    the enumeration: the call ends with the enumeration's [ValueError]
    and the kind assertion is not reached. *)
Lemma packed_999999_counterexample :
  startswith (strip "-999999") "-" = true /\
  length (slice_from 1 (strip "-999999")) = 6 /\
  XcFunctional.from_abinit_ixc (P := Libxc.provider) "-999999"
  = Raise (ValueError "not a valid LibxcFuncs") /\
  XcFunctional.from_abinit_ixc (P := Libxc.provider) "-999999"
  <> Raise (AssertionError "x.is_x_kind and c.is_c_kind").
Proof.
  assert (H : XcFunctional.from_abinit_ixc (P := Libxc.provider) "-999999"
              = Raise (ValueError "not a valid LibxcFuncs")).
  { apply (from_abinit_ixc_unresolved (P := Libxc.provider) "-999999" 999);
      reflexivity. }
  split; [reflexivity|]. split; [reflexivity|]. split; [exact H|].
  rewrite H. discriminate.
Qed.
